(** * build_demosaic_nb.py: the notebook cell counter

    The script opens the notebook file [CP-Math-Demosaic.ipynb] of the
    working directory, decodes it with [json.load], looks up the field
    [cells] of the decoded object and prints how many elements it has.

    The embedding is shallow.  Python objects produced by the JSON decoder
    are an inductive type, the process (file system, open file handles,
    standard output, argument vector, environment) is an explicit state, and
    the statements of the script are computations of a state-and-exception
    monad, so that an uncaught exception is a value the caller can observe.
    The decoder itself is library code: the script is written over an
    arbitrary decoder, and a reference decoder for the JSON grammar is given
    to run the script on concrete notebook texts. *)

From Stdlib Require Import String Ascii ZArith List DecimalString DecimalNat.
From stdpp Require Import gmap strings list fin_maps.

Set Warnings "-register-all".

(** ** Python objects *)

Module Py.

(** A Python [str] is a sequence of code points. *)
Abbreviation str := (list N).

(** The [str] of a literal of the source (ASCII only). *)
Definition lit (s : string) : str :=
  map N_of_ascii (list_ascii_of_string s).

(** What [json.load] can return: [None], [bool], [int], [float], [str],
    [list] and [dict] with [str] keys.  A [float] keeps the spelling of its
    literal: the script never computes with one. *)
Inductive val : Type :=
| VNone
| VBool (b : bool)
| VInt (z : Z)
| VFloat (spelling : string)
| VStr (s : str)
| VList (xs : list val)
| VDict (d : gmap str val).

Inductive type : Type :=
| TNoneType | TBool | TInt | TFloat | TStr | TList | TDict.

Definition type_of (v : val) : type :=
  match v with
  | VNone => TNoneType
  | VBool _ => TBool
  | VInt _ => TInt
  | VFloat _ => TFloat
  | VStr _ => TStr
  | VList _ => TList
  | VDict _ => TDict
  end.

(** The exceptions the script can meet.  [TypeError] records the type of
    the object that does not support the operation. *)
Inductive exn : Type :=
| FileNotFoundError (path : string)
| IsADirectoryError (path : string)
| PermissionError (path : string)
| ValueError (msg : string)
| JSONDecodeError
| KeyError (key : str)
| TypeError (t : type).

(** [obj[key]] for a [str] key.  Only a [dict] can be subscripted by a
    [str]: a missing key is a [KeyError], every other object is a
    [TypeError] (sequences want integer indices, the rest is not
    subscriptable). *)
Definition getitem (obj : val) (key : str) : exn + val :=
  match obj with
  | VDict d =>
      match d !! key with
      | Some v => inr v
      | None => inl (KeyError key)
      end
  | _ => inl (TypeError (type_of obj))
  end.

(** [len(obj)]: defined on the sized objects [str], [list] and [dict]. *)
Definition len (obj : val) : exn + nat :=
  match obj with
  | VStr s => inr (length s)
  | VList xs => inr (length xs)
  | VDict d => inr (size d)
  | _ => inl (TypeError (type_of obj))
  end.

(** [str(n)] for a non-negative [int]: its decimal digits. *)
Definition str_of_nat (n : nat) : string :=
  NilZero.string_of_uint (Nat.to_uint n).

End Py.

(** ** The process *)

Module Proc.
Import Py.

(** An entry of the working directory.  A regular file is given by the text
    its content decodes to. *)
Inductive node : Type :=
| File (readable : bool) (text : str)
| Directory.

(** What the process does to the outside world, in order. *)
Inductive event : Type :=
| EvOpenFailed (path : string)
| EvOpen (path : string) (h : nat)
| EvRead (h : nat)
| EvClose (h : nat)
| EvPrint (line : string).

Record state : Type := mkState {
  files : gmap string node;      (* the working directory *)
  argv : list string;            (* sys.argv *)
  environ : gmap string string;  (* os.environ *)
  handles : gmap nat string;     (* open file objects and their paths *)
  out : list string;             (* lines written to standard output *)
  trace : list event
}.

Definition log (ev : event) (s : state) : state :=
  mkState (files s) (argv s) (environ s) (handles s) (out s) (trace s ++ [ev]).

Definition logs (evs : list event) (s : state) : state :=
  mkState (files s) (argv s) (environ s) (handles s) (out s) (trace s ++ evs).

Definition set_handles (hs : gmap nat string) (s : state) : state :=
  mkState (files s) (argv s) (environ s) hs (out s) (trace s).

Definition put_line (line : string) (s : state) : state :=
  mkState (files s) (argv s) (environ s) (handles s) (out s ++ [line]) (trace s).

(** Computations: a state transformer that returns a value or raises. *)
Definition M (A : Type) : Type := state -> state * (exn + A).

Definition ret {A} (a : A) : M A := fun s => (s, inr a).

Definition raise {A} (e : exn) : M A := fun s => (s, inl e).

Definition lift {A} (r : exn + A) : M A := fun s => (s, r).

Definition bind {A B} (m : M A) (k : A -> M B) : M B :=
  fun s =>
    match m s with
    | (s', inl e) => (s', inl e)
    | (s', inr a) => k a s'
    end.

Declare Scope py_scope.
Delimit Scope py_scope with py.
Notation "x <- m ;; k" := (bind m (fun x => k))
  (at level 100, m at next level, right associativity) : py_scope.

(** The handle a successful [open] returns: one that is not in use. *)
Definition next_handle (s : state) : nat := fresh (dom (handles s)).

(** [open(path, 'r')] *)
Definition open_r (path : string) : M nat :=
  fun s =>
    match files s !! path with
    | None => (log (EvOpenFailed path) s, inl (FileNotFoundError path))
    | Some Directory => (log (EvOpenFailed path) s, inl (IsADirectoryError path))
    | Some (File false _) => (log (EvOpenFailed path) s, inl (PermissionError path))
    | Some (File true _) =>
        let h := next_handle s in
        (log (EvOpen path h) (set_handles (<[h := path]> (handles s)) s), inr h)
    end.

(** [f.read()]: the whole text of the file behind an open handle. *)
Definition read (h : nat) : M str :=
  fun s =>
    match handles s !! h ≫= (files s !!.) with
    | Some (File _ text) => (log (EvRead h) s, inr text)
    | _ => (s, inl (ValueError "I/O operation on closed file"))
    end.

(** [f.close()]: closing twice is allowed. *)
Definition close (h : nat) : M unit :=
  fun s =>
    match handles s !! h with
    | None => (s, inr tt)
    | Some _ => (log (EvClose h) (set_handles (delete h (handles s)) s), inr tt)
    end.

(** [with open(path, 'r') as f: body]: the file object's [__exit__] closes
    the handle when the body returns and when it raises, and lets the
    exception through. *)
Definition with_open {A} (path : string) (body : nat -> M A) : M A :=
  fun s =>
    match open_r path s with
    | (s1, inl e) => (s1, inl e)
    | (s1, inr h) =>
        let '(s2, r) := body h s1 in
        (fst (close h s2), r)
    end.

(** [print(line)] *)
Definition print (line : string) : M unit :=
  fun s => (log (EvPrint line) (put_line line s), inr tt).

End Proc.

(** ** The script *)

Module Script.
Import Py Proc.
Local Open Scope py_scope.

(** The file name is a literal of the source. *)
Definition NOTEBOOK : string := "CP-Math-Demosaic.ipynb".

Section WithDecoder.

(** [json.loads]: the library's decoder, from the text of a document to the
    object it denotes or the exception it raises. *)
Variable json_loads : str -> exn + val.

(** [json.load(f)] reads the whole file and decodes it. *)
Definition json_load (f : nat) : M val :=
  text <- read f ;;
  lift (json_loads text).

(** [with open('CP-Math-Demosaic.ipynb', 'r') as f:
        notebook = json.load(f)] *)
Definition load_notebook : M val :=
  with_open NOTEBOOK (fun f => json_load f).

(** The line the script prints for [n] cells. *)
Definition message (n : nat) : string :=
  String.append "Starting with " (String.append (str_of_nat n) " cell(s)").

(** The module's top level, statement by statement. *)
Definition main : M unit :=
  notebook <- load_notebook ;;
  cells <- lift (getitem notebook (lit "cells")) ;;
  n <- lift (len cells) ;;
  print (message n).

(** What the operating system hands to a new process. *)
Record invocation : Type := mkInvocation {
  inv_files : gmap string node;
  inv_argv : list string;
  inv_environ : gmap string string
}.

(** What is left when the process has ended.  An exception that reaches
    the top level is reported on standard error and the exit status is 1;
    otherwise the status is 0. *)
Record result : Type := mkResult {
  exit_status : nat;
  stdout : list string;
  stderr : option exn;
  files_after : gmap string node;
  handles_after : gmap nat string;
  events : list event
}.

Definition start (i : invocation) : state :=
  mkState (inv_files i) (inv_argv i) (inv_environ i) ∅ [] [].

Definition finish (r : state * (exn + unit)) : result :=
  let s := fst r in
  match snd r with
  | inr _ => mkResult 0 (out s) None (files s) (handles s) (trace s)
  | inl e => mkResult 1 (out s) (Some e) (files s) (handles s) (trace s)
  end.

Definition run (i : invocation) : result := finish (main (start i)).

(** Running the script again in the directory the previous run left. *)
Definition again (i : invocation) : invocation :=
  mkInvocation (files_after (run i)) (inv_argv i) (inv_environ i).

Fixpoint runs (n : nat) (i : invocation) : list result :=
  match n with
  | 0 => []
  | S n' => run i :: runs n' (again i)
  end.

End WithDecoder.

(** A line of the success format: [Starting with {N} cell(s)] for some N. *)
Definition success_line (line : string) : Prop :=
  exists n : nat, line = message n.

(** Events that read from a file. *)
Definition is_read (ev : event) : bool :=
  match ev with EvRead _ => true | _ => false end.

(** The invocation for a working directory in which the notebook file is
    a readable file with the given text. *)
Definition notebook_dir (text : str) : gmap string node :=
  {[ NOTEBOOK := File true text ]}.

(** The path an event tries to open. *)
Definition opened_path (ev : event) : option string :=
  match ev with
  | EvOpen path _ | EvOpenFailed path => Some path
  | _ => None
  end.

(** The events of a run that could open the notebook, before it prints. *)
Definition io : list event := [EvOpen NOTEBOOK 0; EvRead 0; EvClose 0].

(** A run that ends with the uncaught exception [e] after the read scope. *)
Definition failed (i : invocation) (e : exn) : result :=
  mkResult 1 [] (Some e) (inv_files i) ∅ io.

(** A run that could not open the notebook. *)
Definition unopened (i : invocation) (e : exn) : result :=
  mkResult 1 [] (Some e) (inv_files i) ∅ [EvOpenFailed NOTEBOOK].

Definition printed (i : invocation) (n : nat) : result :=
  mkResult 0 [message n] None (inv_files i) ∅ (io ++ [EvPrint (message n)]).

End Script.

(** ** A reference decoder

    A decoder for the grammar [json.loads] accepts: the JSON grammar, with
    the constants [NaN], [Infinity] and [-Infinity] the library adds, the
    last binding of a repeated key kept, and control characters refused
    inside strings.  It reads a document in two passes, both by structural
    recursion: characters to tokens, then tokens to an object. *)

Module Json.
Import Py.

Inductive token : Type :=
| LBrace | RBrace | LBracket | RBracket | Colon | Comma
| Lit (v : val).

Definition ch (c : N) (a : ascii) : bool := N.eqb c (N_of_ascii a).

Definition quote : ascii := "034"%char.

Definition is_ws (c : N) : bool :=
  ch c " " || N.eqb c 9 || N.eqb c 10 || N.eqb c 13.

Definition is_digit (c : N) : bool := N.leb 48 c && N.leb c 57.

Definition hex_value (c : N) : option N :=
  if is_digit c then Some (c - 48)%N
  else if N.leb 97 c && N.leb c 102 then Some (c - 87)%N
  else if N.leb 65 c && N.leb c 70 then Some (c - 55)%N
  else None.

Definition is_high (u : N) : bool := N.leb 55296 u && N.leb u 56319.
Definition is_low (u : N) : bool := N.leb 56320 u && N.leb u 57343.

(** The code point of a surrogate pair. *)
Definition join (hi lo : N) : N :=
  (65536 + (hi - 55296) * 1024 + (lo - 56320))%N.

(** Where the scanner is inside a number. *)
Inductive phase : Type :=
| Minus       (* after the sign *)
| Zero        (* after a leading 0 *)
| Int         (* in the integer part *)
| Dot         (* after the point *)
| Frac        (* in the fraction *)
| Exp         (* after e or E *)
| ExpSign     (* after the sign of the exponent *)
| ExpDigits.  (* in the exponent *)

(** The scanner's state.  Accumulators hold characters last first; [pend]
    is a high surrogate written as an escape that may still be followed by
    the escape of its low half. *)
Inductive mode : Type :=
| Idle
| InStr (acc : str) (pend : option N)
| InEsc (acc : str) (pend : option N)
| InHex (acc : str) (pend : option N) (k : nat) (u : N)
| InNum (ph : phase) (acc : str)
| InWord (rest : str) (v : val).

Definition settle (pend : option N) (acc : str) : str :=
  match pend with
  | Some h => h :: acc
  | None => acc
  end.

Definition spelling (acc : str) : string :=
  string_of_list_ascii (map ascii_of_N (rev acc)).

Fixpoint digits_value (ds : str) (n : Z) : Z :=
  match ds with
  | [] => n
  | d :: r => digits_value r (10 * n + Z.of_N (d - 48))
  end.

Definition int_value (acc : str) : Z :=
  match rev acc with
  | c :: r => if ch c "-" then Z.opp (digits_value r 0) else digits_value (c :: r) 0
  | [] => 0%Z
  end.

(** The token of a number that ends in phase [ph], if it can end there. *)
Definition number (ph : phase) (acc : str) : option token :=
  match ph with
  | Zero | Int => Some (Lit (VInt (int_value acc)))
  | Frac | ExpDigits => Some (Lit (VFloat (spelling acc)))
  | _ => None
  end.

Definition step_idle (c : N) : option (mode * list token) :=
  if is_ws c then Some (Idle, [])
  else if ch c "{" then Some (Idle, [LBrace])
  else if ch c "}" then Some (Idle, [RBrace])
  else if ch c "[" then Some (Idle, [LBracket])
  else if ch c "]" then Some (Idle, [RBracket])
  else if ch c ":" then Some (Idle, [Colon])
  else if ch c "," then Some (Idle, [Comma])
  else if ch c quote then Some (InStr [] None, [])
  else if ch c "-" then Some (InNum Minus [c], [])
  else if ch c "0" then Some (InNum Zero [c], [])
  else if is_digit c then Some (InNum Int [c], [])
  else if ch c "t" then Some (InWord (lit "rue") (VBool true), [])
  else if ch c "f" then Some (InWord (lit "alse") (VBool false), [])
  else if ch c "n" then Some (InWord (lit "ull") VNone, [])
  else if ch c "N" then Some (InWord (lit "aN") (VFloat "NaN"), [])
  else if ch c "I" then Some (InWord (lit "nfinity") (VFloat "Infinity"), [])
  else None.

(** A number ends before [c]: its token, then [c] as the start of what
    follows. *)
Definition end_number (ph : phase) (acc : str) (c : N) : option (mode * list token) :=
  match number ph acc, step_idle c with
  | Some t, Some (m, ts) => Some (m, t :: ts)
  | _, _ => None
  end.

Definition step_number (ph : phase) (acc : str) (c : N) : option (mode * list token) :=
  let e := ch c "e" || ch c "E" in
  match ph with
  | Minus =>
      if ch c "0" then Some (InNum Zero (c :: acc), [])
      else if is_digit c then Some (InNum Int (c :: acc), [])
      else if ch c "I" then Some (InWord (lit "nfinity") (VFloat "-Infinity"), [])
      else None
  | Zero =>
      if ch c "." then Some (InNum Dot (c :: acc), [])
      else if e then Some (InNum Exp (c :: acc), [])
      else if is_digit c then None
      else end_number ph acc c
  | Int =>
      if is_digit c then Some (InNum Int (c :: acc), [])
      else if ch c "." then Some (InNum Dot (c :: acc), [])
      else if e then Some (InNum Exp (c :: acc), [])
      else end_number ph acc c
  | Dot =>
      if is_digit c then Some (InNum Frac (c :: acc), []) else None
  | Frac =>
      if is_digit c then Some (InNum Frac (c :: acc), [])
      else if e then Some (InNum Exp (c :: acc), [])
      else end_number ph acc c
  | Exp =>
      if ch c "+" || ch c "-" then Some (InNum ExpSign (c :: acc), [])
      else if is_digit c then Some (InNum ExpDigits (c :: acc), [])
      else None
  | ExpSign =>
      if is_digit c then Some (InNum ExpDigits (c :: acc), []) else None
  | ExpDigits =>
      if is_digit c then Some (InNum ExpDigits (c :: acc), [])
      else end_number ph acc c
  end.

(** The character an escape [\c] stands for ([\u] apart). *)
Definition escaped (c : N) : option N :=
  if ch c quote || ch c "\" || ch c "/" then Some c
  else if ch c "b" then Some 8%N
  else if ch c "f" then Some 12%N
  else if ch c "n" then Some 10%N
  else if ch c "r" then Some 13%N
  else if ch c "t" then Some 9%N
  else None.

(** A [\uXXXX] escape of value [u] has been read. *)
Definition end_hex (acc : str) (pend : option N) (u : N) : mode :=
  match pend with
  | Some h =>
      if is_low u then InStr (join h u :: acc) None
      else if is_high u then InStr (h :: acc) (Some u)
      else InStr (u :: h :: acc) None
  | None =>
      if is_high u then InStr acc (Some u) else InStr (u :: acc) None
  end.

Definition step (m : mode) (c : N) : option (mode * list token) :=
  match m with
  | Idle => step_idle c
  | InStr acc pend =>
      if ch c quote then Some (Idle, [Lit (VStr (rev (settle pend acc)))])
      else if ch c "\" then Some (InEsc acc pend, [])
      else if N.ltb c 32 then None
      else Some (InStr (c :: settle pend acc) None, [])
  | InEsc acc pend =>
      if ch c "u" then Some (InHex acc pend 0 0%N, [])
      else match escaped c with
           | Some x => Some (InStr (x :: settle pend acc) None, [])
           | None => None
           end
  | InHex acc pend k u =>
      match hex_value c with
      | Some d =>
          let u' := (16 * u + d)%N in
          if Nat.eqb k 3 then Some (end_hex acc pend u', [])
          else Some (InHex acc pend (S k) u', [])
      | None => None
      end
  | InNum ph acc => step_number ph acc c
  | InWord rest v =>
      match rest with
      | x :: rest' =>
          if N.eqb c x then
            match rest' with
            | [] => Some (Idle, [Lit v])
            | _ => Some (InWord rest' v, [])
            end
          else None
      | [] => None
      end
  end.

(** The end of the text: only between tokens or at the end of a number. *)
Definition flush (m : mode) : option (list token) :=
  match m with
  | Idle => Some []
  | InNum ph acc =>
      match number ph acc with
      | Some t => Some [t]
      | None => None
      end
  | _ => None
  end.

Fixpoint lex (m : mode) (s : str) : option (list token) :=
  match s with
  | [] => flush m
  | c :: r =>
      match step m c with
      | Some (m', ts) =>
          match lex m' r with
          | Some ts' => Some (ts ++ ts')
          | None => None
          end
      | None => None
      end
  end.

(** A container under construction: the elements of a list, last first,
    or the bindings of a dict and the key whose value is being read. *)
Inductive frame : Type :=
| FList (acc : list val)
| FDict (d : gmap str val) (key : option str).

(** What the parser accepts next. *)
Inductive expect : Type :=
| Value          (* a value *)
| ValueOrEnd     (* after [[]: a value or the closing bracket *)
| KeyOrEnd       (* after [{]: a key or the closing brace *)
| Key            (* after a comma in a dict: a key *)
| AfterKey       (* the colon *)
| CommaOrEnd     (* after a value in a container *)
| Finished (v : val).

(** A value is complete: it is the document, or it goes into the
    innermost container. *)
Definition push (v : val) (stack : list frame) : option (expect * list frame) :=
  match stack with
  | [] => Some (Finished v, [])
  | FList acc :: below => Some (CommaOrEnd, FList (v :: acc) :: below)
  | FDict d (Some k) :: below => Some (CommaOrEnd, FDict (<[k := v]> d) None :: below)
  | FDict _ None :: _ => None
  end.

Definition start_value (t : token) (stack : list frame) : option (expect * list frame) :=
  match t with
  | Lit v => push v stack
  | LBracket => Some (ValueOrEnd, FList [] :: stack)
  | LBrace => Some (KeyOrEnd, FDict ∅ None :: stack)
  | _ => None
  end.

Definition start_key (t : token) (stack : list frame) : option (expect * list frame) :=
  match t, stack with
  | Lit (VStr k), FDict d None :: below => Some (AfterKey, FDict d (Some k) :: below)
  | _, _ => None
  end.

Definition close_list (stack : list frame) : option (expect * list frame) :=
  match stack with
  | FList acc :: below => push (VList (rev acc)) below
  | _ => None
  end.

Definition close_dict (stack : list frame) : option (expect * list frame) :=
  match stack with
  | FDict d None :: below => push (VDict d) below
  | _ => None
  end.

Definition accept (e : expect) (stack : list frame) (t : token)
  : option (expect * list frame) :=
  match e with
  | Value => start_value t stack
  | ValueOrEnd =>
      match t with
      | RBracket => close_list stack
      | _ => start_value t stack
      end
  | KeyOrEnd =>
      match t with
      | RBrace => close_dict stack
      | _ => start_key t stack
      end
  | Key => start_key t stack
  | AfterKey =>
      match t with
      | Colon => Some (Value, stack)
      | _ => None
      end
  | CommaOrEnd =>
      match t, stack with
      | Comma, FList _ :: _ => Some (Value, stack)
      | Comma, FDict _ _ :: _ => Some (Key, stack)
      | RBracket, _ => close_list stack
      | RBrace, _ => close_dict stack
      | _, _ => None
      end
  | Finished _ => None
  end.

Fixpoint parse (e : expect) (stack : list frame) (ts : list token) : option val :=
  match ts with
  | [] =>
      match e with
      | Finished v => Some v
      | _ => None
      end
  | t :: r =>
      match accept e stack t with
      | Some (e', stack') => parse e' stack' r
      | None => None
      end
  end.

(** [json.loads(text)] *)
Definition loads (text : str) : exn + val :=
  match lex Idle text with
  | Some ts =>
      match parse Value [] ts with
      | Some v => inr v
      | None => inl JSONDecodeError
      end
  | None => inl JSONDecodeError
  end.

(** The text of a document written in the source of this file: [q] stands
    for the double quote. *)
Definition q : string := String quote EmptyString.

Definition text (parts : list string) : str := lit (String.concat "" parts).

End Json.

(** ** Sample notebooks *)

Module Samples.
Import Py Proc Script Json.

(** [{"cells": []}] *)
Definition empty_notebook : str := text ["{"; q; "cells"; q; ": []}"].

(** [{"cells": [{}, {}, {}]}] *)
Definition three_cells : str := text ["{"; q; "cells"; q; ": [{}, {}, {}]}"].

(** [{}] *)
Definition no_cells : str := text ["{}"].

(** [{"cells": [{}, ] a truncated document *)
Definition truncated : str := text ["{"; q; "cells"; q; ": [{}, "].

(** [{"cells": "abc"}] *)
Definition cells_string : str := text ["{"; q; "cells"; q; ": "; q; "abc"; q; "}"].

(** [{"cells": 3}] *)
Definition cells_number : str := text ["{"; q; "cells"; q; ": 3}"].

(** [{"cells": [1, 2], "nbformat": 4}] *)
Definition two_numbers : str :=
  text ["{"; q; "cells"; q; ": [1, 2], "; q; "nbformat"; q; ": 4}"].

(** [{"metadata": {}, "cells": [{}, null]}] *)
Definition two_others : str :=
  text ["{"; q; "metadata"; q; ": {}, "; q; "cells"; q; ": [{}, null]}"].

(** A process started without arguments in a directory that holds the
    notebook with the given text. *)
Definition plain (text : str) : invocation :=
  mkInvocation (notebook_dir text) ["build_demosaic_nb.py"] ∅.

(** The same directory, with arguments and an environment. *)
Definition decorated (text : str) : invocation :=
  mkInvocation (notebook_dir text)
    ["build_demosaic_nb.py"; "other.ipynb"; "--cells"; "7"]
    {[ "NOTEBOOK" := "other.ipynb"; "HOME" := "/root" ]}.

(** A directory without the notebook. *)
Definition elsewhere : invocation :=
  mkInvocation {[ "README.md" := File true (lit "demosaic") ]}
    ["build_demosaic_nb.py"] ∅.

(** [[{}, {}]]: the cells without the object around them *)
Definition bare_cells : str := text ["[{}, {}]"].

(** A directory in which the notebook may not be read. *)
Definition locked : invocation :=
  mkInvocation {[ NOTEBOOK := File false three_cells ]}
    ["build_demosaic_nb.py"] ∅.

(** A directory in which the notebook's name is a directory. *)
Definition folder : invocation :=
  mkInvocation {[ NOTEBOOK := Directory ]} ["build_demosaic_nb.py"] ∅.

(** A directory that holds other entries beside the notebook. *)
Definition crowded (text : str) : invocation :=
  mkInvocation
    (<[ "README.md" := File true (lit "demosaic") ]>
       (<[ "figures" := Directory ]> (notebook_dir text)))
    ["build_demosaic_nb.py"] ∅.

(** A process that is already at work when the module runs: a file is
    open and a line has been printed. *)
Definition busy (text : str) : state :=
  mkState (<[ "README.md" := File true (lit "demosaic") ]> (notebook_dir text))
    ["app.py"] ∅ {[ 0 := "README.md" ]} ["ready"]
    [EvOpen "README.md" 0; EvPrint "ready"].

End Samples.

(** * Properties of the script *)

Module Facts.
Import Py Proc Script.

(** ** The process primitives *)

Lemma next_handle_free s : handles s !! next_handle s = None.
Proof.
  apply not_elem_of_dom. unfold next_handle. apply is_fresh.
Qed.

Lemma state_eta s :
  mkState (files s) (argv s) (environ s) (handles s) (out s) (trace s) = s.
Proof. by destruct s. Qed.

Lemma open_r_ok path text s :
  files s !! path = Some (File true text) ->
  open_r path s =
    (log (EvOpen path (next_handle s))
         (set_handles (<[next_handle s := path]> (handles s)) s),
     inr (next_handle s)).
Proof. intros Hf. unfold open_r. by rewrite Hf. Qed.

(** A [with] block whose body leaves the table of handles alone returns
    it as it found it, whether the body returns or raises. *)
Lemma with_open_releases {A} path (body : nat -> M A) s :
  (forall h s1, handles (fst (body h s1)) = handles s1) ->
  handles (fst (with_open path body s)) = handles s.
Proof.
  intros Hbody. unfold with_open, open_r.
  destruct (files s !! path) as [[[] text|]|] eqn:Hf; simpl; try done.
  set (h := next_handle s).
  set (s1 := log _ _).
  specialize (Hbody h s1).
  destruct (body h s1) as [s2 r] eqn:Hb. simpl in *.
  unfold close. rewrite Hbody. subst s1. simpl.
  rewrite lookup_insert_eq. simpl.
  rewrite delete_insert_eq. apply delete_id, next_handle_free.
Qed.

Section WithDecoder.

Variable json_loads : str -> exn + val.

(** ** The read scope *)

Lemma json_load_handles h s :
  handles (fst (json_load json_loads h s)) = handles s.
Proof.
  unfold json_load, bind, read, lift.
  destruct (handles s !! h ≫= _) as [[rd text|]|]; done.
Qed.

(** What the [with] block does, by the state of the notebook file. *)
Lemma load_notebook_spec s :
  load_notebook json_loads s =
    match files s !! NOTEBOOK with
    | Some (File true text) =>
        let h := next_handle s in
        (logs [EvOpen NOTEBOOK h; EvRead h; EvClose h] s, json_loads text)
    | Some (File false _) =>
        (log (EvOpenFailed NOTEBOOK) s, inl (PermissionError NOTEBOOK))
    | Some Directory =>
        (log (EvOpenFailed NOTEBOOK) s, inl (IsADirectoryError NOTEBOOK))
    | None =>
        (log (EvOpenFailed NOTEBOOK) s, inl (FileNotFoundError NOTEBOOK))
    end.
Proof.
  unfold load_notebook, with_open, open_r.
  destruct (files s !! NOTEBOOK) as [[[] text|]|] eqn:Hf; try done.
  unfold json_load, bind, read, lift, close. simpl.
  rewrite lookup_insert_eq. simpl. rewrite Hf. simpl.
  rewrite lookup_insert_eq. simpl.
  f_equal. unfold logs, log, set_handles. simpl.
  rewrite delete_insert_eq, (delete_id _ _ (next_handle_free s)).
  by rewrite <- !app_assoc.
Qed.

(** ** The whole run *)

Lemma first_handle i : next_handle (start i) = 0.
Proof. reflexivity. Qed.

Lemma run_readable i text :
  inv_files i !! NOTEBOOK = Some (File true text) ->
  run json_loads i =
    match json_loads text with
    | inl e => failed i e
    | inr notebook =>
        match getitem notebook (lit "cells") with
        | inl e => failed i e
        | inr cells =>
            match len cells with
            | inl e => failed i e
            | inr n => printed i n
            end
        end
    end.
Proof.
  intros Hf. unfold run, main, bind. rewrite load_notebook_spec.
  change (files (start i)) with (inv_files i). rewrite Hf. simpl.
  rewrite first_handle.
  destruct (json_loads text) as [e|notebook]; [done|].
  unfold lift.
  destruct (getitem notebook (lit "cells")) as [e|cells]; [done|].
  destruct (len cells) as [e|n]; done.
Qed.

Lemma run_unreadable i :
  run json_loads i =
    match inv_files i !! NOTEBOOK with
    | Some (File true text) => run json_loads i
    | Some (File false _) => unopened i (PermissionError NOTEBOOK)
    | Some Directory => unopened i (IsADirectoryError NOTEBOOK)
    | None => unopened i (FileNotFoundError NOTEBOOK)
    end.
Proof.
  destruct (inv_files i !! NOTEBOOK) as [[[] text|]|] eqn:Hf; try done;
    unfold run, main, bind; rewrite load_notebook_spec;
    change (files (start i)) with (inv_files i); by rewrite Hf.
Qed.

(** The shapes a run can have. *)
Lemma run_cases i :
  (exists e, run json_loads i = unopened i e) \/
  (exists e, run json_loads i = failed i e) \/
  (exists n, run json_loads i = printed i n).
Proof.
  destruct (inv_files i !! NOTEBOOK) as [[[] text|]|] eqn:Hf.
  - rewrite (run_readable i text Hf).
    destruct (json_loads text) as [e|notebook]; [eauto|].
    destruct (getitem notebook (lit "cells")) as [e|cells]; [eauto|].
    destruct (len cells) as [e|n]; eauto.
  - left. rewrite run_unreadable, Hf. eauto.
  - left. rewrite run_unreadable, Hf. eauto.
  - left. rewrite run_unreadable, Hf. eauto.
Qed.

Lemma run_files i : files_after (run json_loads i) = inv_files i.
Proof.
  destruct (run_cases i) as [[e ->]|[[e ->]|[n ->]]]; done.
Qed.

Lemma again_same i : again json_loads i = i.
Proof. unfold again. rewrite run_files. by destruct i. Qed.

Lemma run_only_files i1 i2 :
  inv_files i1 = inv_files i2 -> run json_loads i1 = run json_loads i2.
Proof.
  intros Hf.
  destruct (inv_files i1 !! NOTEBOOK) as [[[] text|]|] eqn:H1.
  - rewrite (run_readable i1 text H1).
    rewrite Hf in H1. rewrite (run_readable i2 text H1).
    unfold failed, printed. by rewrite Hf.
  - rewrite (run_unreadable i1), (run_unreadable i2), <- Hf, H1.
    unfold unopened. by rewrite Hf.
  - rewrite (run_unreadable i1), (run_unreadable i2), <- Hf, H1.
    unfold unopened. by rewrite Hf.
  - rewrite (run_unreadable i1), (run_unreadable i2), <- Hf, H1.
    unfold unopened. by rewrite Hf.
Qed.

(** A notebook whose [cells] object has a length. *)
Lemma run_sized i text d cells n :
  inv_files i !! NOTEBOOK = Some (File true text) ->
  json_loads text = inr (VDict d) ->
  d !! lit "cells" = Some cells ->
  len cells = inr n ->
  run json_loads i = printed i n.
Proof.
  intros Hf Hd Hc Hn. rewrite (run_readable i text Hf), Hd.
  unfold getitem. by rewrite Hc, Hn.
Qed.

(** A notebook whose [cells] object has none. *)
Lemma run_unsized i text d cells e :
  inv_files i !! NOTEBOOK = Some (File true text) ->
  json_loads text = inr (VDict d) ->
  d !! lit "cells" = Some cells ->
  len cells = inl e ->
  run json_loads i = failed i e.
Proof.
  intros Hf Hd Hc Hn. rewrite (run_readable i text Hf), Hd.
  unfold getitem. by rewrite Hc, Hn.
Qed.

End WithDecoder.

End Facts.

(** ** The reference decoder on small documents *)

Module JsonExamples.
Import Py Json.

Example empty_object : loads (text ["{}"]) = inr (VDict ∅).
Proof. vm_compute; reflexivity. Qed.

Example empty_cells :
  loads Samples.empty_notebook = inr (VDict {[ lit "cells" := VList [] ]}).
Proof. vm_compute; reflexivity. Qed.

Example scalars :
  loads (text ["[1, -20, 0.5, 1e3, true, false, null, NaN]"]) =
  inr (VList [VInt 1; VInt (-20); VFloat "0.5"; VFloat "1e3"; VBool true;
              VBool false; VNone; VFloat "NaN"]).
Proof. vm_compute; reflexivity. Qed.

Example escapes :
  loads (text [q; "a\n\u0041\ud83d\ude00"; q]) =
  inr (VStr [97; 10; 65; 128512]%N).
Proof. vm_compute; reflexivity. Qed.

Example last_binding_kept :
  loads (text ["{"; q; "a"; q; ": 1, "; q; "a"; q; ": 2}"]) =
  inr (VDict {[ lit "a" := VInt 2 ]}).
Proof. vm_compute; reflexivity. Qed.

Example nested :
  loads (text ["[[], {"; q; "k"; q; ": [{}]}]"]) =
  inr (VList [VList []; VDict {[ lit "k" := VList [VDict ∅] ]}]).
Proof. vm_compute; reflexivity. Qed.

Example no_document : loads (text [" "]) = inl JSONDecodeError.
Proof. vm_compute; reflexivity. Qed.

Example trailing_comma : loads (text ["[1, ]"]) = inl JSONDecodeError.
Proof. vm_compute; reflexivity. Qed.

Example leading_zero : loads (text ["01"]) = inl JSONDecodeError.
Proof. vm_compute; reflexivity. Qed.

Example extra_data : loads (text ["{} {}"]) = inl JSONDecodeError.
Proof. vm_compute; reflexivity. Qed.

Example key_not_a_string : loads (text ["{1: 2}"]) = inl JSONDecodeError.
Proof. vm_compute; reflexivity. Qed.

Example open_string : loads (text [q; "abc"]) = inl JSONDecodeError.
Proof. vm_compute; reflexivity. Qed.

(** The spec's examples, end to end. *)
Example spec_example_empty :
  Script.stdout (Script.run loads (Samples.plain Samples.empty_notebook)) =
  ["Starting with 0 cell(s)"].
Proof. vm_compute; reflexivity. Qed.

Example spec_example_three :
  Script.stdout (Script.run loads (Samples.plain Samples.three_cells)) =
  ["Starting with 3 cell(s)"].
Proof. vm_compute; reflexivity. Qed.

End JsonExamples.

(** * The specification, claim by claim *)

Module Spec.
Import Py Proc Script Facts.

Section WithDecoder.

Variable json_loads : str -> exn + val.

Local Abbreviation run := (Script.run json_loads).

(** C1.  When the notebook file holds a JSON object whose field [cells] is
    a sequence of length N, the script prints the single line
    [Starting with N cell(s)] and exits with status zero. *)
Theorem cells_list_prints_count i text d cs N :
  inv_files i !! NOTEBOOK = Some (File true text) ->
  json_loads text = inr (VDict d) ->
  d !! lit "cells" = Some (VList cs) ->
  length cs = N ->
  stdout (run i) = ["Starting with " +:+ str_of_nat N +:+ " cell(s)"] /\
  exit_status (run i) = 0.
Proof.
  intros Hf Hd Hc <-.
  by rewrite (run_sized json_loads i text d (VList cs) (length cs)).
Qed.

(** C2.  When the notebook file holds a JSON object without a field
    [cells], the lookup raises a [KeyError] nobody catches: the exit
    status is not zero and nothing is printed, so no line of the success
    format is. *)
Theorem missing_cells_raises_key_error i text d :
  inv_files i !! NOTEBOOK = Some (File true text) ->
  json_loads text = inr (VDict d) ->
  d !! lit "cells" = None ->
  stderr (run i) = Some (KeyError (lit "cells")) /\
  exit_status (run i) <> 0 /\
  stdout (run i) = [] /\
  (forall line, line ∈ stdout (run i) -> ~ success_line line).
Proof.
  intros Hf Hd Hc. rewrite (run_readable json_loads i text Hf), Hd.
  unfold getitem. rewrite Hc. simpl.
  repeat split; [done|]. intros line Hin. by apply elem_of_nil in Hin.
Qed.

(** C3.  When the text of the notebook file is not a JSON document, so
    that the decoder raises, the exception is not caught: the exit status
    is not zero and nothing is printed. *)
Theorem invalid_json_raises i text e :
  inv_files i !! NOTEBOOK = Some (File true text) ->
  json_loads text = inl e ->
  stderr (run i) = Some e /\
  exit_status (run i) <> 0 /\
  stdout (run i) = [] /\
  (forall line, line ∈ stdout (run i) -> ~ success_line line).
Proof.
  intros Hf Hd. rewrite (run_readable json_loads i text Hf), Hd. simpl.
  repeat split; [done|]. intros line Hin. by apply elem_of_nil in Hin.
Qed.

(** C4.  When the working directory has no file [CP-Math-Demosaic.ipynb],
    the script ends with an uncaught [FileNotFoundError]: the exit status
    is not zero and no line of the success format is printed. *)
Theorem missing_file_raises i :
  inv_files i !! "CP-Math-Demosaic.ipynb" = None ->
  stderr (run i) = Some (FileNotFoundError "CP-Math-Demosaic.ipynb") /\
  exit_status (run i) <> 0 /\
  stdout (run i) = [] /\
  (forall line, line ∈ stdout (run i) -> ~ success_line line).
Proof.
  intros Hf. rewrite run_unreadable. fold NOTEBOOK in Hf. rewrite Hf. simpl.
  repeat split; [done|]. intros line Hin. by apply elem_of_nil in Hin.
Qed.

(** C5, as amended.  When the notebook file holds a JSON object whose
    field [cells] is [null], a boolean or a number, [len] raises a
    [TypeError] nobody catches: the exit status is not zero and nothing is
    printed.  When [cells] is a string or an object, [len] is defined on
    it: the script prints the success line with the number of characters
    of the string, or of keys of the object, and exits with status zero. *)
Theorem cells_not_list_outcome i text d v :
  inv_files i !! NOTEBOOK = Some (File true text) ->
  json_loads text = inr (VDict d) ->
  d !! lit "cells" = Some v ->
  (v = VNone \/ (exists b, v = VBool b) \/ (exists z, v = VInt z) \/
   (exists x, v = VFloat x) ->
   stderr (run i) = Some (TypeError (type_of v)) /\
   exit_status (run i) <> 0 /\
   stdout (run i) = []) /\
  (forall s, v = VStr s ->
   stdout (run i) = ["Starting with " +:+ str_of_nat (length s) +:+ " cell(s)"] /\
   exit_status (run i) = 0) /\
  (forall d', v = VDict d' ->
   stdout (run i) = ["Starting with " +:+ str_of_nat (size d') +:+ " cell(s)"] /\
   exit_status (run i) = 0).
Proof.
  intros Hf Hd Hc. split; [|split].
  - intros Hv.
    rewrite (run_unsized json_loads i text d v (TypeError (type_of v))); try done.
    destruct Hv as [->|[[b ->]|[[z ->]|[x ->]]]]; done.
  - intros s ->.
    by rewrite (run_sized json_loads i text d (VStr s) (length s)).
  - intros d' ->.
    by rewrite (run_sized json_loads i text d (VDict d') (size d')).
Qed.

(** C6.  Running the script any number of times over the same unmodified
    notebook gives the same result every time, standard output included:
    a run leaves the directory as it found it, so the next run starts from
    the same files. *)
Theorem reruns_identical n i :
  runs json_loads n i = replicate n (run i) /\
  files_after (run i) = inv_files i.
Proof.
  split; [|apply run_files].
  induction n as [|n IH]; simpl; [done|].
  by rewrite again_same, IH.
Qed.

(** C7.  On every path, with or without an exception, the files are what
    they were before the run.  The run prints at most one line and reads
    at most once; what it does is either a failed attempt to open the
    notebook, or opening, reading and closing it, followed by the lines
    it prints. *)
Theorem run_is_read_only i :
  files_after (run i) = inv_files i /\
  length (stdout (run i)) <= 1 /\
  length (List.filter is_read (events (run i))) <= 1 /\
  (events (run i) = [EvOpenFailed NOTEBOOK] \/
   events (run i) =
     [EvOpen NOTEBOOK 0; EvRead 0; EvClose 0] ++ map EvPrint (stdout (run i))).
Proof.
  destruct (run_cases json_loads i) as [[e ->]|[[e ->]|[n ->]]]; simpl;
    repeat split; auto.
Qed.

(** C8.  The script looks at no argument and no environment variable: two
    processes started on the same files give the same result, whatever
    their argument vectors and environments, and the only path a process
    tries to open is the literal [CP-Math-Demosaic.ipynb]. *)
Theorem argv_environ_ignored i1 i2 :
  inv_files i1 = inv_files i2 ->
  run i1 = run i2 /\
  (forall ev path, ev ∈ events (run i1) -> opened_path ev = Some path ->
   path = "CP-Math-Demosaic.ipynb").
Proof.
  intros Hf. split; [by apply run_only_files|].
  intros ev path Hin Hp.
  destruct (run_cases json_loads i1) as [[e Hr]|[[e Hr]|[n Hr]]];
    rewrite Hr in Hin; simpl in Hin;
    repeat (apply elem_of_cons in Hin as [->|Hin]);
    try (by apply elem_of_nil in Hin); simpl in Hp;
    first [discriminate | by injection Hp as <-].
Qed.

(** C9.  The output depends on the notebook through the length of [cells]
    alone: two notebooks whose [cells] sequences are of equal length give
    the same standard output (and the same exit status), whatever the
    cells and the other fields are. *)
Theorem output_depends_on_length_only i1 i2 text1 text2 d1 d2 cs1 cs2 :
  inv_files i1 !! NOTEBOOK = Some (File true text1) ->
  json_loads text1 = inr (VDict d1) ->
  d1 !! lit "cells" = Some (VList cs1) ->
  inv_files i2 !! NOTEBOOK = Some (File true text2) ->
  json_loads text2 = inr (VDict d2) ->
  d2 !! lit "cells" = Some (VList cs2) ->
  length cs1 = length cs2 ->
  stdout (run i1) = stdout (run i2) /\
  exit_status (run i1) = exit_status (run i2).
Proof.
  intros Hf1 Hd1 Hc1 Hf2 Hd2 Hc2 Hlen.
  rewrite (run_sized json_loads i1 text1 d1 (VList cs1) (length cs1)); try done.
  rewrite (run_sized json_loads i2 text2 d2 (VList cs2) (length cs2)); try done.
  simpl. by rewrite Hlen.
Qed.

(** C10.  When control leaves the [with] block, by a return or by an
    exception of [open], [read] or the decoder, the table of open handles
    is what it was when the block was entered: the handle the block
    opened, which was free before, has been closed.  A whole run ends
    with no handle open. *)
Theorem handle_released s :
  handles (fst (load_notebook json_loads s)) = handles s /\
  (trace (fst (load_notebook json_loads s)) = trace s ++ [EvOpenFailed NOTEBOOK] \/
   exists h, handles s !! h = None /\
     trace (fst (load_notebook json_loads s)) =
       trace s ++ [EvOpen NOTEBOOK h; EvRead h; EvClose h]) /\
  (forall i, handles_after (run i) = ∅).
Proof.
  split; [|split].
  - apply with_open_releases. intros h s1. apply json_load_handles.
  - rewrite load_notebook_spec.
    destruct (files s !! NOTEBOOK) as [[[] text|]|]; simpl; auto.
    right. exists (next_handle s). split; [apply next_handle_free|done].
  - intros i.
    destruct (run_cases json_loads i) as [[e ->]|[[e ->]|[n ->]]]; done.
Qed.

End WithDecoder.

(** ** The claims on sample notebooks, with the reference decoder *)

Import Samples.

Lemma cells_list_prints_count_witness :
  inv_files (plain three_cells) !! NOTEBOOK = Some (File true three_cells) /\
  Json.loads three_cells =
    inr (VDict {[ lit "cells" := VList [VDict ∅; VDict ∅; VDict ∅] ]}) /\
  stdout (run Json.loads (plain three_cells)) = ["Starting with 3 cell(s)"] /\
  exit_status (run Json.loads (plain three_cells)) = 0.
Proof.
  split; [reflexivity|]. split; [vm_compute; reflexivity|].
  apply (cells_list_prints_count Json.loads (plain three_cells) three_cells
           {[ lit "cells" := VList [VDict ∅; VDict ∅; VDict ∅] ]}
           [VDict ∅; VDict ∅; VDict ∅] 3);
    vm_compute; reflexivity.
Defined.

Lemma missing_cells_raises_key_error_witness :
  Json.loads no_cells = inr (VDict ∅) /\
  stderr (run Json.loads (plain no_cells)) = Some (KeyError (lit "cells")) /\
  exit_status (run Json.loads (plain no_cells)) <> 0 /\
  stdout (run Json.loads (plain no_cells)) = [] /\
  (forall line, line ∈ stdout (run Json.loads (plain no_cells)) ->
   ~ success_line line).
Proof.
  split; [vm_compute; reflexivity|].
  apply (missing_cells_raises_key_error Json.loads (plain no_cells) no_cells ∅);
    vm_compute; reflexivity.
Defined.

Lemma invalid_json_raises_witness :
  Json.loads truncated = inl JSONDecodeError /\
  stderr (run Json.loads (plain truncated)) = Some JSONDecodeError /\
  exit_status (run Json.loads (plain truncated)) <> 0 /\
  stdout (run Json.loads (plain truncated)) = [] /\
  (forall line, line ∈ stdout (run Json.loads (plain truncated)) ->
   ~ success_line line).
Proof.
  split; [vm_compute; reflexivity|].
  apply (invalid_json_raises Json.loads (plain truncated) truncated JSONDecodeError);
    vm_compute; reflexivity.
Defined.

Lemma missing_file_raises_witness :
  inv_files elsewhere !! "CP-Math-Demosaic.ipynb" = None /\
  stderr (run Json.loads elsewhere) =
    Some (FileNotFoundError "CP-Math-Demosaic.ipynb") /\
  exit_status (run Json.loads elsewhere) <> 0 /\
  stdout (run Json.loads elsewhere) = [] /\
  (forall line, line ∈ stdout (run Json.loads elsewhere) -> ~ success_line line).
Proof.
  split; [vm_compute; reflexivity|].
  apply (missing_file_raises Json.loads elsewhere). vm_compute; reflexivity.
Defined.

(** C5, as stated, fails on [{"cells": "abc"}]: the document is a JSON
    object, its field [cells] is a string and not a sequence of cells, and
    yet the script exits with status zero after it has printed a line of
    the success format. *)
Lemma cells_string_is_counted :
  Json.loads cells_string = inr (VDict {[ lit "cells" := VStr (lit "abc") ]}) /\
  (forall xs, VStr (lit "abc") <> VList xs) /\
  exit_status (run Json.loads (plain cells_string)) = 0 /\
  stderr (run Json.loads (plain cells_string)) = None /\
  stdout (run Json.loads (plain cells_string)) = ["Starting with 3 cell(s)"] /\
  success_line "Starting with 3 cell(s)".
Proof.
  split; [vm_compute; reflexivity|]. split; [discriminate|].
  repeat split; try (vm_compute; reflexivity).
  by exists 3.
Qed.

Lemma cells_not_list_outcome_witness :
  Json.loads cells_number = inr (VDict {[ lit "cells" := VInt 3 ]}) /\
  stderr (run Json.loads (plain cells_number)) = Some (TypeError TInt) /\
  exit_status (run Json.loads (plain cells_number)) <> 0 /\
  stdout (run Json.loads (plain cells_number)) = [].
Proof.
  split; [vm_compute; reflexivity|].
  refine (proj1 (cells_not_list_outcome Json.loads (plain cells_number)
                   cells_number {[ lit "cells" := VInt 3 ]} (VInt 3) _ _ _) _);
    [vm_compute; reflexivity .. |].
  right. right. left. by exists 3%Z.
Defined.

Lemma argv_environ_ignored_witness :
  inv_argv (plain three_cells) <> inv_argv (decorated three_cells) /\
  inv_environ (plain three_cells) <> inv_environ (decorated three_cells) /\
  inv_files (plain three_cells) = inv_files (decorated three_cells) /\
  run Json.loads (plain three_cells) = run Json.loads (decorated three_cells) /\
  (forall ev path, ev ∈ events (run Json.loads (plain three_cells)) ->
   opened_path ev = Some path -> path = "CP-Math-Demosaic.ipynb").
Proof.
  split; [discriminate|]. split; [vm_compute; discriminate|].
  split; [reflexivity|].
  apply (argv_environ_ignored Json.loads (plain three_cells) (decorated three_cells)).
  reflexivity.
Defined.

Lemma output_depends_on_length_only_witness :
  two_numbers <> two_others /\
  stdout (run Json.loads (plain two_numbers)) =
    stdout (run Json.loads (decorated two_others)) /\
  exit_status (run Json.loads (plain two_numbers)) =
    exit_status (run Json.loads (decorated two_others)).
Proof.
  split; [vm_compute; discriminate|].
  apply (output_depends_on_length_only Json.loads
           (plain two_numbers) (decorated two_others) two_numbers two_others
           {[ lit "cells" := VList [VInt 1; VInt 2]; lit "nbformat" := VInt 4 ]}
           {[ lit "metadata" := VDict ∅; lit "cells" := VList [VDict ∅; VNone] ]}
           [VInt 1; VInt 2] [VDict ∅; VNone]);
    vm_compute; reflexivity.
Defined.

End Spec.

(** * Further properties of the script *)

Module Extra.
Import Py Proc Script Facts.

(** ** The printed line *)

Lemma list_ascii_of_append s t :
  list_ascii_of_string (String.append s t) =
  list_ascii_of_string s ++ list_ascii_of_string t.
Proof. induction s as [|a s IH]; simpl; [done|]. by rewrite IH. Qed.

Lemma append_inv_tail s1 s2 t :
  String.append s1 t = String.append s2 t -> s1 = s2.
Proof.
  intros H.
  rewrite <- (string_of_list_ascii_of_string s1),
          <- (string_of_list_ascii_of_string s2).
  f_equal. apply (app_inv_tail (list_ascii_of_string t)).
  by rewrite <- !list_ascii_of_append, H.
Qed.

Lemma to_uint_not_nil n : Nat.to_uint n <> Decimal.Nil.
Proof.
  intros H. pose proof (DecimalNat.Unsigned.of_to n) as Hn.
  rewrite H in Hn. simpl in Hn. subst n. discriminate H.
Qed.

Lemma str_of_nat_inj n m : str_of_nat n = str_of_nat m -> n = m.
Proof.
  unfold str_of_nat. intros H.
  apply DecimalNat.Unsigned.to_uint_inj.
  pose proof (NilZero.usu _ (to_uint_not_nil n)) as Hn.
  pose proof (NilZero.usu _ (to_uint_not_nil m)) as Hm.
  rewrite H in Hn. congruence.
Qed.

Lemma message_inj n m : message n = message m -> n = m.
Proof.
  unfold message. intros H.
  apply String.app_inj in H. apply append_inv_tail in H.
  by apply str_of_nat_inj.
Qed.

Lemma line_inj n m : [message n] = [message m] -> n = m.
Proof. intros H. apply message_inj. congruence. Qed.

Section WithDecoder.

Variable json_loads : str -> exn + val.

Local Abbreviation run := (Script.run json_loads).

(** ** The top level from any state *)

Lemma main_spec s :
  main json_loads s =
    match files s !! NOTEBOOK with
    | Some (File true text) =>
        let h := next_handle s in
        let s1 := logs [EvOpen NOTEBOOK h; EvRead h; EvClose h] s in
        match json_loads text with
        | inl e => (s1, inl e)
        | inr notebook =>
            match getitem notebook (lit "cells") with
            | inl e => (s1, inl e)
            | inr cells =>
                match len cells with
                | inl e => (s1, inl e)
                | inr n => print (message n) s1
                end
            end
        end
    | Some (File false _) =>
        (log (EvOpenFailed NOTEBOOK) s, inl (PermissionError NOTEBOOK))
    | Some Directory =>
        (log (EvOpenFailed NOTEBOOK) s, inl (IsADirectoryError NOTEBOOK))
    | None =>
        (log (EvOpenFailed NOTEBOOK) s, inl (FileNotFoundError NOTEBOOK))
    end.
Proof.
  unfold main, bind. rewrite load_notebook_spec.
  destruct (files s !! NOTEBOOK) as [[[] text|]|]; done.
Qed.

Lemma getitem_inr notebook key cells :
  getitem notebook key = inr cells ->
  exists d, notebook = VDict d /\ d !! key = Some cells.
Proof.
  destruct notebook; try discriminate. simpl.
  destruct (d !! key) as [v|] eqn:Hk; [|discriminate].
  intros [= <-]. eauto.
Qed.

Lemma getitem_inl notebook key e :
  getitem notebook key = inl e ->
  (exists d, notebook = VDict d /\ d !! key = None /\ e = KeyError key) \/
  ((forall d, notebook <> VDict d) /\ e = TypeError (type_of notebook)).
Proof.
  destruct notebook; simpl; try (intros [= <-]; right; by split).
  destruct (d !! key) as [v|] eqn:Hk; [discriminate|].
  intros [= <-]. left. eauto.
Qed.

Lemma len_inl cells e : len cells = inl e -> e = TypeError (type_of cells).
Proof. destruct cells; simpl; congruence. Qed.

(** ** Statements *)

(** X1.  When the notebook file holds a JSON document that is not an
    object (a list of cells, a string, a number, ...), subscripting it
    with ["cells"] raises a [TypeError] nobody catches: the exit status is
    not zero and nothing is printed. *)
Theorem document_not_object_raises i text v :
  inv_files i !! NOTEBOOK = Some (File true text) ->
  json_loads text = inr v ->
  (forall d, v <> VDict d) ->
  stderr (run i) = Some (TypeError (type_of v)) /\
  exit_status (run i) <> 0 /\
  stdout (run i) = [].
Proof.
  intros Hf Hd Hv. rewrite (run_readable json_loads i text Hf), Hd.
  destruct v; try done. by destruct (Hv d).
Qed.

(** X2.  When the notebook's name is a directory, or a file the process
    may not read, [open] raises ([IsADirectoryError], [PermissionError])
    and the script stops there: nothing is read or printed, the exit
    status is not zero, and the decoder plays no part in the result. *)
Theorem unopenable_notebook_never_read i :
  inv_files i !! NOTEBOOK = Some Directory \/
  (exists text, inv_files i !! NOTEBOOK = Some (File false text)) ->
  (inv_files i !! NOTEBOOK = Some Directory ->
   stderr (run i) = Some (IsADirectoryError NOTEBOOK)) /\
  ((exists text, inv_files i !! NOTEBOOK = Some (File false text)) ->
   stderr (run i) = Some (PermissionError NOTEBOOK)) /\
  exit_status (run i) <> 0 /\
  stdout (run i) = [] /\
  events (run i) = [EvOpenFailed NOTEBOOK] /\
  (forall loads', Script.run loads' i = run i).
Proof.
  intros H.
  assert (forall loads',
    Script.run loads' i = unopened i (IsADirectoryError NOTEBOOK) /\
      inv_files i !! NOTEBOOK = Some Directory \/
    Script.run loads' i = unopened i (PermissionError NOTEBOOK) /\
      exists text, inv_files i !! NOTEBOOK = Some (File false text)) as Hrun.
  { intros loads'. rewrite (run_unreadable loads' i).
    destruct H as [H|[text H]]; rewrite H; eauto. }
  destruct (Hrun json_loads) as [[Hr Hf]|[Hr [text Hf]]]; rewrite Hr;
    (repeat split; try done;
     [ try (intros [text' Hf']); congruence
     | intros loads'; destruct (Hrun loads') as [[-> ?]|[-> [? ?]]]; congruence ]).
Qed.

(** X3.  The exit status tells what was printed.  A run either exits with
    status 0, reports nothing on standard error and has printed exactly
    one line of the success format; or it exits with status 1, reports an
    exception and has printed nothing. *)
Theorem exit_status_tells_output i :
  (exit_status (run i) = 0 /\ stderr (run i) = None /\
   exists n, stdout (run i) = [message n]) \/
  (exit_status (run i) = 1 /\ stdout (run i) = [] /\
   exists e, stderr (run i) = Some e).
Proof.
  destruct (run_cases json_loads i) as [[e ->]|[[e ->]|[n ->]]]; simpl; eauto 10.
Qed.

(** X4.  The script prints the line for the count [n] exactly when the
    notebook file can be read, decodes to an object, the object has a
    field [cells], and [len] of that field is [n]. *)
Theorem prints_count_iff i n :
  stdout (run i) = [message n] <->
  exists text d cells,
    inv_files i !! NOTEBOOK = Some (File true text) /\
    json_loads text = inr (VDict d) /\
    d !! lit "cells" = Some cells /\
    len cells = inr n.
Proof.
  split.
  - intros Hout.
    destruct (inv_files i !! NOTEBOOK) as [[[] text|]|] eqn:Hf;
      try (rewrite run_unreadable, Hf in Hout; discriminate Hout).
    rewrite (run_readable json_loads i text Hf) in Hout.
    destruct (json_loads text) as [e|notebook] eqn:Hd; [discriminate|].
    destruct (getitem notebook (lit "cells")) as [e|cells] eqn:Hg; [discriminate|].
    destruct (len cells) as [e|m] eqn:Hl; [discriminate|].
    apply getitem_inr in Hg as [d [-> Hc]].
    change (stdout (printed i m)) with [message m] in Hout.
    apply line_inj in Hout as ->. by exists text, d, cells.
  - intros (text & d & cells & Hf & Hd & Hc & Hl).
    by rewrite (run_sized json_loads i text d cells n).
Qed.

(** X5.  Two notebooks on whose [cells] field [len] is defined give the
    same standard output exactly when the two lengths are equal: the
    printed line determines the count. *)
Theorem equal_output_iff_equal_len i1 i2 text1 text2 d1 d2 c1 c2 n1 n2 :
  inv_files i1 !! NOTEBOOK = Some (File true text1) ->
  json_loads text1 = inr (VDict d1) ->
  d1 !! lit "cells" = Some c1 ->
  len c1 = inr n1 ->
  inv_files i2 !! NOTEBOOK = Some (File true text2) ->
  json_loads text2 = inr (VDict d2) ->
  d2 !! lit "cells" = Some c2 ->
  len c2 = inr n2 ->
  stdout (run i1) = stdout (run i2) <-> n1 = n2.
Proof.
  intros Hf1 Hd1 Hc1 Hl1 Hf2 Hd2 Hc2 Hl2.
  rewrite (run_sized json_loads i1 text1 d1 c1 n1),
          (run_sized json_loads i2 text2 d2 c2 n2); try done.
  change (stdout (printed i1 n1)) with [message n1].
  change (stdout (printed i2 n2)) with [message n2].
  split; [apply line_inj|by intros ->].
Qed.

(** X6.  Run from any state of a process (files already open, lines
    already printed), the module's top level leaves the files, the
    argument vector, the environment and the table of open handles as
    they were, and only appends to the output: one success line when it
    returns, nothing when it raises. *)
Theorem main_frame s :
  files (fst (main json_loads s)) = files s /\
  argv (fst (main json_loads s)) = argv s /\
  environ (fst (main json_loads s)) = environ s /\
  handles (fst (main json_loads s)) = handles s /\
  (exists evs, trace (fst (main json_loads s)) = trace s ++ evs) /\
  match snd (main json_loads s) with
  | inr _ => exists n, out (fst (main json_loads s)) = out s ++ [message n]
  | inl _ => out (fst (main json_loads s)) = out s
  end.
Proof.
  rewrite main_spec.
  destruct (files s !! NOTEBOOK) as [[[] text|]|]; simpl;
    try (repeat split; eauto; fail).
  destruct (json_loads text) as [e|notebook]; simpl;
    [repeat split; eauto|].
  destruct (getitem notebook (lit "cells")) as [e|cells]; simpl;
    [repeat split; eauto|].
  destruct (len cells) as [e|n]; simpl; [repeat split; eauto|].
  repeat split; eauto.
  eexists. by rewrite <- app_assoc.
Qed.

(** X7.  Of the working directory, only the entry of the notebook counts:
    two processes whose directories agree on [CP-Math-Demosaic.ipynb]
    print the same, report the same exception, exit with the same status
    and do the same operations, whatever else the directories hold. *)
Theorem only_notebook_entry_matters i1 i2 :
  inv_files i1 !! NOTEBOOK = inv_files i2 !! NOTEBOOK ->
  stdout (run i1) = stdout (run i2) /\
  stderr (run i1) = stderr (run i2) /\
  exit_status (run i1) = exit_status (run i2) /\
  events (run i1) = events (run i2).
Proof.
  intros H.
  destruct (inv_files i1 !! NOTEBOOK) as [[[] text|]|] eqn:H1; symmetry in H.
  - rewrite (run_readable json_loads i1 text H1), (run_readable json_loads i2 text H).
    destruct (json_loads text) as [e|notebook]; [done|].
    destruct (getitem notebook (lit "cells")) as [e|cells]; [done|].
    destruct (len cells) as [e|n]; done.
  - by rewrite (run_unreadable json_loads i1), (run_unreadable json_loads i2), H1, H.
  - by rewrite (run_unreadable json_loads i1), (run_unreadable json_loads i2), H1, H.
  - by rewrite (run_unreadable json_loads i1), (run_unreadable json_loads i2), H1, H.
Qed.

(** X8.  Every failure has one of these causes, and the exception says
    which: the notebook is missing, is a directory or may not be read
    (the error of [open]); the decoder raised (its exception, unchanged);
    the document is not an object ([TypeError] for its type); the object
    has no field [cells] ([KeyError] for that key); or [len] is not
    defined on the field ([TypeError] for its type). *)
Theorem failure_causes i e :
  stderr (run i) = Some e ->
  (inv_files i !! NOTEBOOK = None /\ e = FileNotFoundError NOTEBOOK) \/
  (inv_files i !! NOTEBOOK = Some Directory /\ e = IsADirectoryError NOTEBOOK) \/
  (exists text, inv_files i !! NOTEBOOK = Some (File false text) /\
     e = PermissionError NOTEBOOK) \/
  (exists text, inv_files i !! NOTEBOOK = Some (File true text) /\
     (json_loads text = inl e \/
      (exists v, json_loads text = inr v /\ (forall d, v <> VDict d) /\
         e = TypeError (type_of v)) \/
      (exists d, json_loads text = inr (VDict d) /\ d !! lit "cells" = None /\
         e = KeyError (lit "cells")) \/
      (exists d cells, json_loads text = inr (VDict d) /\
         d !! lit "cells" = Some cells /\ len cells = inl e /\
         e = TypeError (type_of cells)))).
Proof.
  intros Herr.
  destruct (inv_files i !! NOTEBOOK) as [[[] text|]|] eqn:Hf.
  - right. right. right. exists text. split; [done|].
    rewrite (run_readable json_loads i text Hf) in Herr.
    destruct (json_loads text) as [e'|notebook] eqn:Hd.
    { injection Herr as ->. by left. }
    right.
    destruct (getitem notebook (lit "cells")) as [e'|cells] eqn:Hg.
    { injection Herr as ->.
      apply getitem_inl in Hg as [(d & -> & Hc & ->)|[Hv ->]]; eauto 10. }
    apply getitem_inr in Hg as [d [-> Hc]].
    destruct (len cells) as [e'|n] eqn:Hl; [|discriminate].
    injection Herr as ->. right. right. exists d, cells.
    repeat split; try done. by apply len_inl.
  - rewrite run_unreadable, Hf in Herr. injection Herr as <-. eauto 10.
  - rewrite run_unreadable, Hf in Herr. injection Herr as <-. eauto.
  - rewrite run_unreadable, Hf in Herr. injection Herr as <-. eauto.
Qed.

End WithDecoder.

(** ** On sample notebooks, with the reference decoder *)

Import Samples.

Lemma document_not_object_raises_witness :
  Json.loads bare_cells = inr (VList [VDict ∅; VDict ∅]) /\
  stderr (run Json.loads (plain bare_cells)) = Some (TypeError TList) /\
  exit_status (run Json.loads (plain bare_cells)) <> 0 /\
  stdout (run Json.loads (plain bare_cells)) = [].
Proof.
  split; [vm_compute; reflexivity|].
  apply (document_not_object_raises Json.loads (plain bare_cells) bare_cells
           (VList [VDict ∅; VDict ∅]));
    [vm_compute; reflexivity | vm_compute; reflexivity | discriminate].
Defined.

Lemma unopenable_notebook_never_read_witness :
  inv_files locked !! NOTEBOOK = Some (File false three_cells) /\
  stderr (run Json.loads locked) = Some (PermissionError NOTEBOOK) /\
  stdout (run Json.loads locked) = [] /\
  events (run Json.loads locked) = [EvOpenFailed NOTEBOOK].
Proof.
  assert (inv_files locked !! NOTEBOOK = Some (File false three_cells)) as Hf
    by (vm_compute; reflexivity).
  split; [exact Hf|].
  destruct (unopenable_notebook_never_read Json.loads locked
              (or_intror (ex_intro _ three_cells Hf)))
    as (_ & Hperm & _ & Hout & Hev & _).
  split; [apply Hperm; by exists three_cells|]. by split.
Defined.

Lemma equal_output_iff_equal_len_witness :
  Json.loads cells_string = inr (VDict {[ lit "cells" := VStr (lit "abc") ]}) /\
  Json.loads three_cells =
    inr (VDict {[ lit "cells" := VList [VDict ∅; VDict ∅; VDict ∅] ]}) /\
  (stdout (run Json.loads (plain cells_string)) =
   stdout (run Json.loads (plain three_cells)) <-> 3 = 3).
Proof.
  split; [vm_compute; reflexivity|]. split; [vm_compute; reflexivity|].
  apply (equal_output_iff_equal_len Json.loads
           (plain cells_string) (plain three_cells) cells_string three_cells
           {[ lit "cells" := VStr (lit "abc") ]}
           {[ lit "cells" := VList [VDict ∅; VDict ∅; VDict ∅] ]}
           (VStr (lit "abc")) (VList [VDict ∅; VDict ∅; VDict ∅]) 3 3);
    vm_compute; reflexivity.
Defined.

Lemma only_notebook_entry_matters_witness :
  inv_files (plain three_cells) <> inv_files (crowded three_cells) /\
  inv_files (plain three_cells) !! NOTEBOOK =
    inv_files (crowded three_cells) !! NOTEBOOK /\
  stdout (run Json.loads (plain three_cells)) =
    stdout (run Json.loads (crowded three_cells)) /\
  stderr (run Json.loads (plain three_cells)) =
    stderr (run Json.loads (crowded three_cells)) /\
  exit_status (run Json.loads (plain three_cells)) =
    exit_status (run Json.loads (crowded three_cells)) /\
  events (run Json.loads (plain three_cells)) =
    events (run Json.loads (crowded three_cells)).
Proof.
  split.
  { intros H. apply (f_equal (fun m => m !! "figures")) in H.
    vm_compute in H. discriminate H. }
  split; [vm_compute; reflexivity|].
  apply (only_notebook_entry_matters Json.loads
           (plain three_cells) (crowded three_cells)).
  vm_compute; reflexivity.
Defined.

Lemma failure_causes_witness :
  stderr (run Json.loads (plain cells_number)) = Some (TypeError TInt) /\
  ((inv_files (plain cells_number) !! NOTEBOOK = None /\
    TypeError TInt = FileNotFoundError NOTEBOOK) \/
   (inv_files (plain cells_number) !! NOTEBOOK = Some Directory /\
    TypeError TInt = IsADirectoryError NOTEBOOK) \/
   (exists text, inv_files (plain cells_number) !! NOTEBOOK = Some (File false text) /\
      TypeError TInt = PermissionError NOTEBOOK) \/
   (exists text, inv_files (plain cells_number) !! NOTEBOOK = Some (File true text) /\
      (Json.loads text = inl (TypeError TInt) \/
       (exists v, Json.loads text = inr v /\ (forall d, v <> VDict d) /\
          TypeError TInt = TypeError (type_of v)) \/
       (exists d, Json.loads text = inr (VDict d) /\ d !! lit "cells" = None /\
          TypeError TInt = KeyError (lit "cells")) \/
       (exists d cells, Json.loads text = inr (VDict d) /\
          d !! lit "cells" = Some cells /\ len cells = inl (TypeError TInt) /\
          TypeError TInt = TypeError (type_of cells))))).
Proof.
  split; [vm_compute; reflexivity|].
  apply (failure_causes Json.loads (plain cells_number) (TypeError TInt)).
  vm_compute; reflexivity.
Defined.

(** The top level in a process that is already at work: the handle it
    held stays open, the line it had printed stays first. *)
Example main_in_busy_process :
  handles (fst (main Json.loads (busy three_cells))) = {[ 0 := "README.md" ]} /\
  out (fst (main Json.loads (busy three_cells))) =
    ["ready"; "Starting with 3 cell(s)"] /\
  trace (fst (main Json.loads (busy three_cells))) =
    [EvOpen "README.md" 0; EvPrint "ready"; EvOpen NOTEBOOK 1; EvRead 1;
     EvClose 1; EvPrint "Starting with 3 cell(s)"].
Proof. repeat split; vm_compute; reflexivity. Qed.

End Extra.
